(** * knex, SQLite3 client: a shallow embedding of [clients/sqlite3.js]

    The file follows the source top to bottom: first the JavaScript data the
    client handles (values, rows, query builders, blueprints), then the
    helpers the grammar inherits from the generic knex grammar (they live in
    [knex.js], outside this client, and are an interface here), then the
    query grammar, the schema grammar and the connection handling, and last
    the properties proved about them. *)

From Stdlib Require Import List String Ascii ZArith Lia Bool Permutation.
From Stdlib Require Import DecimalString.
From Stdlib Require DecimalNat.
Import ListNotations.

Local Open Scope list_scope.
Local Open Scope string_scope.

(** ** JavaScript data *)

Module Js.

(** The primitive values that reach the client as bindings, defaults and
    error arguments. Numbers are the integers the tests use; [VNaN] is kept
    because it is the one falsy number besides zero. *)
Inductive value : Type :=
| VUndefined
| VNull
| VBool (b : bool)
| VNum (z : Z)
| VNaN
| VStr (s : string).

(** [if (v)], [!v], [v || d]: JavaScript's ToBoolean. *)
Definition truthy (v : value) : bool :=
  match v with
  | VUndefined | VNull | VNaN => false
  | VBool b => b
  | VNum z => negb (Z.eqb z 0)
  | VStr s => negb (String.eqb s "")
  end.

(** [String(v)], as [new Error(v)] and string concatenation apply it. *)
Definition toString (v : value) : string :=
  match v with
  | VUndefined => "undefined"
  | VNull => "null"
  | VBool true => "true"
  | VBool false => "false"
  | VNum z => NilZero.string_of_int (Z.to_int z)
  | VNaN => "NaN"
  | VStr s => s
  end.

(** The exceptions the client can raise, by constructor. *)
Inductive exn : Type :=
| Error (message : string)
| TypeError (message : string)
| ReferenceError (message : string).

(** A call either returns or throws. *)
Inductive completion (A : Type) : Type :=
| Return (a : A)
| Throw (e : exn).
Arguments Return {A} a.
Arguments Throw {A} e.

(** [Array.prototype.join]: the elements separated by [sep]. *)
Fixpoint join (sep : string) (l : list string) : string :=
  match l with
  | [] => ""
  | x :: rest =>
      match rest with
      | [] => x
      | _ :: _ => x ++ sep ++ join sep rest
      end
  end.

(** [for (i = start, l = start + n; i < l; i++) body]: the loop state is
    threaded through [n] iterations, the index counting up. *)
Fixpoint for_loop {S : Type} (n : nat) (i : nat) (body : nat -> S -> S) (s : S) : S :=
  match n with
  | O => s
  | Datatypes.S n' => for_loop n' (Datatypes.S i) body (body i s)
  end.

(** [a.push(x)] on an array held in the loop state. *)
Definition push {A : Type} (a : list A) (x : A) : list A := (a ++ [x])%list.

(** A plain object used as a record of own enumerable properties, in
    enumeration order; keys are unique. *)
Definition object (V : Type) : Type := list (string * V).

(** [_.keys(o)] and [_.values(o)]. *)
Definition keys {V : Type} (o : object V) : list string := map fst o.
Definition values {V : Type} (o : object V) : list V := map snd o.

(** [o[k]]: the property's value, [None] standing for a missing property. *)
Fixpoint get {V : Type} (o : object V) (k : string) : option V :=
  match o with
  | [] => None
  | (k', v) :: rest => if String.eqb k' k then Some v else get rest k
  end.

(** [o[k] = v]: an existing property keeps its place and takes the new
    value, a new one is appended. *)
Fixpoint set {V : Type} (o : object V) (k : string) (v : V) : object V :=
  match o with
  | [] => [(k, v)]
  | (k', v') :: rest =>
      if String.eqb k' k then (k', v) :: rest else (k', v') :: set rest k v
  end.

End Js.

Import Js.

(** ** What the query builder hands to the grammar *)

(** A row to insert: column name to bound value. *)
Definition Row : Type := object value.

(** The builder object [qb], by the fields this client reads. *)
Record Builder : Type := {
  table : string;
  from : string
}.

(** One entry of the builder's [orders] array. *)
Record Order : Type := {
  column : string;
  direction : string
}.

(** A schema command, by the fields this client reads: [name] selects the
    command, [columns] its own columns, [on] and [references] the target of a
    foreign key, [index] an index name, [to] the new table name. *)
Record Command : Type := {
  name : string;
  columns : list string;
  on : string;
  references : list string;
  index : string;
  to : string
}.

(** A column of a blueprint, by the fields the modifiers read. *)
Record Column : Type := {
  col_name : string;
  type : string;
  nullable : bool;
  defaultValue : value;
  autoIncrement : bool
}.

(** The schema builder's blueprint. *)
Record Blueprint : Type := {
  bp_table : string;
  bp_columns : list Column;
  bp_commands : list Command
}.

(** [wrapTable] is called with a table name ([qb.table], [foreign.on],
    [command.to]) and with a whole blueprint. *)
Inductive TableArg : Type :=
| TableName (s : string)
| TableOf (b : Blueprint).

(** What a compile method returns: SQL text, an object from SQL text to that
    statement's bindings (as [compileTruncate] builds), or nothing. *)
Inductive Compiled : Type :=
| Sql (text : string)
| SqlBindings (statements : object (list value))
| NoSql.

(** [compileInsert] accepts one row or an array of rows ([_.isArray]). *)
Inductive InsertArg : Type :=
| OneRow (r : Row)
| RowArray (rs : list Row).

(** ** The inherited grammar

    [exports.grammar] "extends the standard sql grammar": [this.wrap],
    [this.wrapTable], [this.columnize], [this.parameterize] and
    [this.getDefaultValue] are defined by the generic grammar of [knex.js],
    and [compileInsert] delegates to [Grammar.prototype.compileInsert]. They
    are the interface below; the client's own methods are written against
    it. *)
Class Inherited : Type := {
  wrap : string -> string;
  wrapTable : TableArg -> string;
  columnize : list string -> string;
  parameterize : option Row -> string;
  Grammar_compileInsert : Builder -> list Row -> completion Compiled;
  getDefaultValue : value -> string
}.

(** The schema grammar reads the blueprint through three more inherited
    helpers. *)
Class InheritedSchema : Type := {
  getColumns : Blueprint -> list string;
  getCommandsByName : Blueprint -> string -> list Command;
  getCommandByName : Blueprint -> string -> option Command
}.

(** [compileAdd] prefixes the column definitions through one more inherited
    helper. *)
Class InheritedHelpers : Type := {
  prefixArray : string -> list string -> list string
}.

(** ** [exports.grammar] *)

Module Grammar.

(** The double quote character, by its code. *)
Definition dquote : string := String (ascii_of_nat 34) EmptyString.

(** [wrapValue]: the keyword identifier wrapper format,
    [util.format] of the value between two double quotes. *)
Definition wrapValue (value : string) : string :=
  if negb (String.eqb value "*") then dquote ++ value ++ dquote else "*".

Section WithInherited.
Context {this : Inherited}.

(** [compileOrders]: the "order by" portion; [None] is [undefined]. *)
Definition compileOrders (qb : Builder) (orders : list Order) : option string :=
  if Nat.eqb (List.length orders) 0 then None
  else Some ("order by " ++
             join ", " (map (fun order =>
                               wrap (column order) ++ " collate nocase " ++ direction order)
                            orders)).

(** [compileInsert]: an insert statement. A single record goes to the
    usual grammar insert builder; several records become a listing of
    selects joined by unions. [_.keys] of a missing first record (an
    empty array) is [Object.keys(undefined)], a [TypeError]. *)
Definition compileInsert (qb : Builder) (values : InsertArg) : completion Compiled :=
  let values := match values with OneRow r => [r] | RowArray rs => rs end in
  let table := wrapTable (TableName (table qb)) in
  let parameters := parameterize (nth_error values 0) in
  let paramBlocks : list string := [] in
  if Nat.eqb (List.length values) 1 then Grammar_compileInsert qb values
  else
    match nth_error values 0 with
    | None => Throw (TypeError "Object.keys called on non-object")
    | Some first =>
        let keys := keys first in
        let names := columnize keys in
        let columns : list string := [] in
        let columns :=
          for_loop (List.length keys) 0
            (fun i columns =>
               match nth_error keys i with
               | Some column => push columns ("? as " ++ wrap column)
               | None => columns (* i < keys.length: not reached *)
               end) columns in
        let joinedColumns := join ", " columns in
        let columns : list string := [] in
        let columns :=
          for_loop (List.length values) 0
            (fun i columns => push columns joinedColumns) columns in
        Return (Sql ("insert into " ++ table ++ " (" ++ names ++ ") select "
                     ++ join " union select " columns))
    end.

(** [compileTruncate]: the object of two statements. The second key is
    built from [query.from], and [query] is no parameter and no variable
    of the module (line 8 declares [init], [debug], [pool], [connection],
    [connectionSettings]): it is looked up in the global scope, given
    here as [query], [None] when no such global exists. *)
Definition compileTruncate (query : option Builder) (qb : Builder) : completion Compiled :=
  let sql : object (list value) := [] in
  let sql := set sql "delete from sqlite_sequence where name = ?" [VStr (from qb)] in
  match query with
  | None => Throw (ReferenceError "query is not defined")
  | Some query =>
      let sql := set sql ("delete from " ++ wrapTable (TableName (from query))) [] in
      Return (SqlBindings sql)
  end.

End WithInherited.

End Grammar.

(** ** [exports.schemaGrammar] *)

Module SchemaGrammar.

(** The column types, one method each. *)
Definition typeString (column : Column) : string := "varchar".
Definition typeText (column : Column) : string := "text".
Definition typeInteger (column : Column) : string := "integer".
Definition typeFloat (column : Column) : string := "float".
Definition typeDecimal (column : Column) : string := "float".
Definition typeBoolean (column : Column) : string := "tinyint".
Definition typeEnum (column : Column) : string := "varchar".
Definition typeDate (column : Column) : string := "date".
Definition typeDateTime (column : Column) : string := "datetime".
Definition typeTime (column : Column) : string := "time".
Definition typeTimestamp (column : Column) : string := "datetime".
Definition typeBinary (column : Column) : string := "blob".

(** [modifyNullable] and [modifyIncrement]. *)
Definition modifyNullable (blueprint : Blueprint) (column : Column) : option string :=
  Some (if nullable column then " null" else " not null").

Definition modifyIncrement (blueprint : Blueprint) (column : Column) : option string :=
  if String.eqb (type column) "integer" && autoIncrement column
  then Some " primary key autoincrement" else None.

(** [compileDropColumn] throws whatever it is given. *)
Definition compileDropColumn (blueprint : Blueprint) (command : Command) : completion Compiled :=
  Throw (Error "Drop column not supported for SQLite.").

(** [compileForeign] has an empty body: it returns [undefined]. *)
Definition compileForeign (blueprint : Blueprint) (command : Command) : completion Compiled :=
  Return NoSql.

Section WithInherited.
Context {this : Inherited} {schema : InheritedSchema}.

(** [modifyDefault]: [None] is the [undefined] of the missing [else]. *)
Definition modifyDefault (blueprint : Blueprint) (column : Column) : option string :=
  if truthy (defaultValue column)
  then Some (" default '" ++ getDefaultValue (defaultValue column) ++ "'")
  else None.

(** [addForeignKeys]: one clause per foreign command, appended to [sql]
    in a loop over the commands. *)
Definition addForeignKeys (blueprint : Blueprint) : string :=
  let sql := EmptyString in
  let foreigns := getCommandsByName blueprint "foreign" in
  for_loop (List.length foreigns) 0
    (fun i sql =>
       match nth_error foreigns i with
       | Some foreign =>
           let on := wrapTable (TableName (on foreign)) in
           let columns := columnize (columns foreign) in
           let onColumns := columnize (references foreign) in
           sql ++ ", foreign key(" ++ columns ++ ") references " ++ on
               ++ "(" ++ onColumns ++ ")"
       | None => sql (* i < foreigns.length: not reached *)
       end) sql.

(** [addPrimaryKeys]: [None] is the [undefined] returned without a
    primary command. *)
Definition addPrimaryKeys (blueprint : Blueprint) : option string :=
  match getCommandByName blueprint "primary" with
  | Some primary =>
      let columns := columnize (columns primary) in
      Some (", primary key (" ++ columns ++ ")")
  | None => None
  end.

(** [compileCreateTable]; [x || ''] is the [match] on [addPrimaryKeys]. *)
Definition compileCreateTable (blueprint : Blueprint) (command : Command) : string :=
  let columns := join ", " (getColumns blueprint) in
  let sql := "create table " ++ wrapTable (TableOf blueprint) ++ " (" ++ columns in
  let sql := sql ++ addForeignKeys blueprint in
  let sql := sql ++ match addPrimaryKeys blueprint with
                    | Some s => if String.eqb s EmptyString then EmptyString else s
                    | None => EmptyString
                    end in
  let sql := sql ++ ")" in
  sql.

End WithInherited.

Section Statements.
Context {this : Inherited} {schema : InheritedSchema} {helpers : InheritedHelpers}.

(** [compileAdd]: the alter table commands for adding columns, one
    statement pushed per prefixed column. *)
Definition compileAdd (blueprint : Blueprint) (command : Command) : list string :=
  let table := wrapTable (TableOf blueprint) in
  let columns := prefixArray "add column" (getColumns blueprint) in
  let statements : list string := [] in
  for_loop (List.length columns) 0
    (fun i statements =>
       match nth_error columns i with
       | Some column => push statements ("alter table " ++ table ++ " " ++ column)
       | None => statements (* i < columns.length: not reached *)
       end) statements.

End Statements.

End SchemaGrammar.

(** ** The connection handling: [initialize], [query], [getConnection] *)

Module Client.

(** [options.connection]. *)
Record ConnectionSettings : Type := { filename : string }.

(** A [sqlite3.Database] handle with the [__cid] the client adds. *)
Record Database : Type := { db_filename : string; __cid : string }.

(** The settings object handed to [genericPool.Pool]; [create] and
    [destroy] are the two closures of the source and carry no data. *)
Record PoolSettings : Type := {
  pool_name : string;
  max : Z;
  min : Z;
  idleTimeoutMillis : Z;
  log : bool
}.

(** [options.pool] when it is not [false]: the settings it overrides
    ([undefined] overrides none). *)
Record PoolOverrides : Type := {
  o_name : option string;
  o_max : option Z;
  o_min : option Z;
  o_idleTimeoutMillis : option Z;
  o_log : option bool
}.

Inductive PoolOption : Type :=
| PoolFalse
| PoolExtend (o : PoolOverrides).

Record Options : Type := {
  opt_connection : option ConnectionSettings;
  opt_debug : value;
  opt_pool : PoolOption
}.

(** The module variable [pool]: never assigned, [false], or a pool. *)
Inductive PoolVar : Type :=
| PoolUndefined
| PoolDisabled
| Pool (settings : PoolSettings).

(** The module's variables (line 8; [init] is never assigned) and the
    counter behind [_.uniqueId]. *)
Record State : Type := {
  debug : value;
  pool : PoolVar;
  connection : option Database;
  connectionSettings : option ConnectionSettings;
  idCounter : nat
}.

(** The module as loaded, before any call. *)
Definition loaded : State :=
  {| debug := VUndefined; pool := PoolUndefined; connection := None;
     connectionSettings := None; idCounter := 0 |}.

Definition or_default {A : Type} (o : option A) (d : A) : A :=
  match o with Some a => a | None => d end.

(** [_.extend({name: 'sqlite3', ..., max: 10, min: 2,
    idleTimeoutMillis: 30000, log: false}, options.pool)]. *)
Definition extend_defaults (o : PoolOverrides) : PoolSettings :=
  {| pool_name := or_default (o_name o) "sqlite3";
     max := or_default (o_max o) 10%Z;
     min := or_default (o_min o) 2%Z;
     idleTimeoutMillis := or_default (o_idleTimeoutMillis o) 30000%Z;
     log := or_default (o_log o) false |}.

(** [exports.getConnection]: a new handle on [connectionSettings.filename]
    with a fresh [__cid]. *)
Definition getConnection (st : State) : completion (Database * State) :=
  match connectionSettings st with
  | None => Throw (TypeError "Cannot read property 'filename' of undefined")
  | Some settings =>
      let n := S (idCounter st) in
      Return ({| db_filename := filename settings;
                 __cid := "__cid" ++ NilZero.string_of_uint (Nat.to_uint n) |},
              {| debug := debug st; pool := pool st; connection := connection st;
                 connectionSettings := connectionSettings st; idCounter := n |})
  end.

(** [exports.initialize]. *)
Definition initialize (options : Options) (st : State) : completion State :=
  match opt_connection options with
  | None => Return st
  | Some settings =>
      let st := {| debug := opt_debug options; pool := pool st;
                   connection := connection st;
                   connectionSettings := Some settings;
                   idCounter := idCounter st |} in
      match opt_pool options with
      | PoolFalse =>
          let st := {| debug := debug st; pool := PoolDisabled;
                       connection := connection st;
                       connectionSettings := connectionSettings st;
                       idCounter := idCounter st |} in
          match getConnection st with
          | Throw e => Throw e
          | Return (c, st) =>
              Return {| debug := debug st; pool := pool st; connection := Some c;
                        connectionSettings := connectionSettings st;
                        idCounter := idCounter st |}
          end
      | PoolExtend o =>
          Return {| debug := debug st; pool := Pool (extend_defaults o);
                    connection := connection st;
                    connectionSettings := connectionSettings st;
                    idCounter := idCounter st |}
      end
  end.

(** The two statement methods of the driver the client calls. *)
Inductive Method : Type := run | all.

(** [this] inside a statement callback: the driver's statement object, by
    the two own properties the client reads; [None] is a missing one. *)
Record Statement : Type := {
  lastID : option value;
  changes : option value
}.

(** The second argument of the caller's callback: nothing, the rows of a
    result set, or the object [{insertId: ..., changes: ...}]. *)
Inductive Response : Type :=
| NoResponse
| Rows (rows : list Row)
| InsertResult (insertId : value) (changes : value).

(** [query] is written in continuation-passing style: it calls the pool
    and the driver and hands each a callback. An [Action] is such a
    computation: what is called next, and what runs when the callee calls
    back with its arguments. *)
Inductive Action : Type :=
| Finish
| Raise (e : exn)
| Acquire (k : value -> option Database -> Action)
| Exec (client : Database) (method : Method) (querystring : string)
       (params : list value) (k : Statement -> value -> Response -> Action)
| Release (client : Database) (k : Action)
| Callback (this : Statement) (err : value) (resp : Response) (k : Action).

(** [exports.query]. The parameter [connection] shadows the module
    variable; [pool.acquire] on a [pool] that is [undefined] or [false] is
    a [TypeError], as is a method call on a missing client. *)
Definition query (st : State) (querystring : string) (params : list value)
           (connection : option Database) (type : string) : Action :=
  match connection with
  | Some connection =>
      Exec connection run querystring params
           (fun this err resp => Callback this err resp Finish)
  | None =>
      match pool st with
      | PoolUndefined => Raise (TypeError "Cannot call method 'acquire' of undefined")
      | PoolDisabled => Raise (TypeError "Object false has no method 'acquire'")
      | Pool _ =>
          Acquire (fun err client =>
            if truthy err then Raise (Error (toString err))
            else
              let method :=
                if String.eqb type "insert" || String.eqb type "update"
                then run else all in
              match client with
              | None => Raise (TypeError "Cannot read property of undefined")
              | Some client =>
                  Exec client method querystring params
                       (fun this err resp =>
                          let resp :=
                            match lastID this with
                            | Some id =>
                                InsertResult id (or_default (changes this) VUndefined)
                            | None => resp
                            end in
                          Release client (Callback this err resp Finish))
              end)
      end
  end.

(** *** Running an action against a pool and a driver *)

(** What the outside does when called: the arguments the pool passes to
    the acquire callback, and the [this], [err] and response the driver
    passes to a statement callback. *)
Record World : Type := {
  acquired : value * option Database;
  executed : Database -> Method -> string -> list value -> Statement * value * Response
}.

(** What can be observed of one call of [query], in order. *)
Inductive Event : Type :=
| EAcquire
| EExec (client : Database) (method : Method) (querystring : string)
        (params : list value)
| ERelease (client : Database)
| ECallback (this : Statement) (err : value) (resp : Response).

(** The events of an action and the exception it ends with, if any. *)
Fixpoint perform (w : World) (a : Action) : list Event * option exn :=
  match a with
  | Finish => ([], None)
  | Raise e => ([], Some e)
  | Acquire k =>
      let (err, client) := acquired w in
      let (events, e) := perform w (k err client) in
      (EAcquire :: events, e)
  | Exec client method querystring params k =>
      let '(this, err, resp) := executed w client method querystring params in
      let (events, e) := perform w (k this err resp) in
      (EExec client method querystring params :: events, e)
  | Release client k =>
      let (events, e) := perform w k in
      (ERelease client :: events, e)
  | Callback this err resp k =>
      let (events, e) := perform w k in
      (ECallback this err resp :: events, e)
  end.

Definition is_release (e : Event) : bool :=
  match e with ERelease _ => true | _ => false end.

End Client.

(** ** The generic grammar and builder, for the examples

    [knex.js] is not part of this client. The definitions of this module
    give the inherited helpers the behaviour the specification describes, so
    that the client's methods can be run on concrete rows and blueprints. *)

Module Knex.

(** Modelled from the spec: [wrap] of the generic grammar ([knex.js], not
    in this client): identifiers are quoted through the dialect's
    [wrapValue], the identifier quoting base case. *)
Definition wrap (value : string) : string := Grammar.wrapValue value.

(** Modelled from the spec: [wrapTable] of the generic grammar, the
    table-name wrapping; a blueprint is wrapped by its table name. *)
Definition wrapTable (t : TableArg) : string :=
  match t with
  | TableName s => wrap s
  | TableOf b => wrap (bp_table b)
  end.

(** Modelled from the spec: [columnize] of the generic grammar, the
    column-name list formatting: the wrapped names, comma-separated. *)
Definition columnize (columns : list string) : string :=
  join ", " (map wrap columns).

(** Modelled from the spec: [parameterize] of the generic grammar, the
    parameter list construction: one placeholder per value. *)
Definition parameterize (row : option Row) : string :=
  match row with
  | Some row => join ", " (map (fun _ => "?") (values row))
  | None => "?"
  end.

(** Modelled from the spec: [Grammar.prototype.compileInsert], the shared
    generic single-row insert compiler; the specification leaves its text
    open, the standard [values] form stands for it. *)
Definition compileInsert (qb : Builder) (values : list Row) : completion Compiled :=
  Return (Sql ("insert into " ++ wrapTable (TableName (table qb))
               ++ " (" ++ columnize (keys (hd [] values)) ++ ") values ("
               ++ parameterize (hd_error values) ++ ")")).

(** Modelled from the spec: [getDefaultValue] of the generic schema
    grammar, the literal of a default value. *)
Definition getDefaultValue (v : value) : string := toString v.

#[export] Instance grammar : Inherited :=
  Build_Inherited wrap wrapTable columnize parameterize compileInsert getDefaultValue.

(** Modelled from the spec: the dispatch of a column's semantic type to
    its [type...] method, the fixed column type mapping. *)
Definition getType (column : Column) : string :=
  let t := type column in
  if String.eqb t "string" then SchemaGrammar.typeString column
  else if String.eqb t "text" then SchemaGrammar.typeText column
  else if String.eqb t "integer" then SchemaGrammar.typeInteger column
  else if String.eqb t "float" then SchemaGrammar.typeFloat column
  else if String.eqb t "decimal" then SchemaGrammar.typeDecimal column
  else if String.eqb t "boolean" then SchemaGrammar.typeBoolean column
  else if String.eqb t "enum" then SchemaGrammar.typeEnum column
  else if String.eqb t "date" then SchemaGrammar.typeDate column
  else if String.eqb t "datetime" || String.eqb t "dateTime"
       then SchemaGrammar.typeDateTime column
  else if String.eqb t "time" then SchemaGrammar.typeTime column
  else if String.eqb t "timestamp" then SchemaGrammar.typeTimestamp column
  else if String.eqb t "binary" then SchemaGrammar.typeBinary column
  else t.

Definition or_empty (o : option string) : string :=
  match o with Some s => s | None => EmptyString end.

(** Modelled from the spec: [getColumns] of the generic schema grammar,
    the column enumeration: per column, in declaration order, the wrapped
    name, the mapped type and the modifiers nullable, default,
    auto-increment. *)
Definition getColumns (blueprint : Blueprint) : list string :=
  map (fun column =>
         wrap (col_name column) ++ " " ++ getType column
         ++ or_empty (SchemaGrammar.modifyNullable blueprint column)
         ++ or_empty (SchemaGrammar.modifyDefault blueprint column)
         ++ or_empty (SchemaGrammar.modifyIncrement blueprint column))
      (bp_columns blueprint).

(** Modelled from the spec: [getCommandsByName] and [getCommandByName] of
    the generic schema grammar, the command lookup by name: all commands
    of that name in order, and the first of them. *)
Definition getCommandsByName (blueprint : Blueprint) (n : string) : list Command :=
  filter (fun command => String.eqb (name command) n) (bp_commands blueprint).

Definition getCommandByName (blueprint : Blueprint) (n : string) : option Command :=
  hd_error (getCommandsByName blueprint n).

#[export] Instance schema : InheritedSchema :=
  Build_InheritedSchema getColumns getCommandsByName getCommandByName.

(** Modelled from the spec: [prefixArray] of the generic schema grammar,
    which puts "add column" and a space before each column definition, so
    that [compileAdd] emits one "alter table ... add column ..." statement
    per column. *)
Definition prefixArray (prefix : string) (values : list string) : list string :=
  map (fun v => prefix ++ " " ++ v) values.

#[export] Instance helpers : InheritedHelpers := Build_InheritedHelpers prefixArray.

(** Modelled from the spec: the bound parameter list of an insert, which
    the query builder of [knex.js] assembles next to the SQL text:
    "parameters are bound positionally, row by row, in the same order as
    the generated placeholders", the placeholders of every row being the
    first row's keys; a key a row lacks binds [undefined]. *)
Definition insertBindings (values : list Row) : list value :=
  match values with
  | [] => []
  | first :: _ =>
      flat_map (fun row => map (fun k => Client.or_default (get row k) VUndefined)
                               (keys first))
               values
  end.

End Knex.

(** ** The vocabulary of the properties *)

Module Spec.

(** The strings of a list one after the other. *)
Fixpoint concat_all (l : list string) : string :=
  match l with
  | [] => EmptyString
  | x :: rest => x ++ concat_all rest
  end.

(** An identifier between double quotes. *)
Definition quoted (s : string) : string := Grammar.dquote ++ s ++ Grammar.dquote.

(** The values of a row read in a given key order. *)
Definition row_values_by (ks : list string) (row : Row) : list value :=
  map (fun k => Client.or_default (get row k) VUndefined) ks.

(** A row is an object (no key twice) with the key set of [first]. *)
Definition shares_keys (first row : Row) : Prop :=
  NoDup (keys row) /\ forall k, In k (keys row) <-> In k (keys first).

(** The falsy values of JavaScript, listed. *)
Definition falsy (v : value) : Prop :=
  v = VUndefined \/ v = VNull \/ v = VBool false \/ v = VNum 0 \/ v = VNaN
  \/ v = VStr EmptyString.

(** An action that does nothing: against every pool and driver it calls
    nobody and returns normally. *)
Definition no_op (a : Client.Action) : Prop :=
  forall w, Client.perform w a = ([], None).

(** [n] calls of [getConnection] one after the other, each on the state
    the one before left: the handles in the order they were opened. *)
Fixpoint open_connections (n : nat) (st : Client.State)
  : completion (list Client.Database * Client.State) :=
  match n with
  | O => Return ([], st)
  | S n' =>
      match Client.getConnection st with
      | Throw e => Throw e
      | Return (c, st') =>
          match open_connections n' st' with
          | Throw e => Throw e
          | Return (cs, st'') => Return (c :: cs, st'')
          end
      end
  end.

(** The [__cid] that [_.uniqueId] makes of a counter value. *)
Definition cid_of (n : nat) : string :=
  "__cid" ++ NilZero.string_of_uint (Nat.to_uint n).

Section WithInherited.
Context {this : Inherited}.

(** One select clause of a multi-row insert over the keys [ks]. *)
Definition select_clause (ks : list string) : string :=
  join ", " (map (fun k => "? as " ++ wrap k) ks).

(** The entries of an order-by clause after the first, each with its
    leading comma. *)
Fixpoint more_orders (orders : list Order) : string :=
  match orders with
  | [] => EmptyString
  | o :: rest =>
      ", " ++ wrap (column o) ++ " collate nocase " ++ direction o
           ++ more_orders rest
  end.

(** The inline clause of one foreign command. *)
Definition foreign_key_clause (foreign : Command) : string :=
  ", foreign key(" ++ columnize (columns foreign) ++ ") references "
    ++ wrapTable (TableName (on foreign)) ++ "(" ++ columnize (references foreign)
    ++ ")".

End WithInherited.

End Spec.

(** ** Concrete inputs *)

Module Examples.

Import Client.

Definition users : Builder := {| table := "users"; from := "users" |}.

Definition two_rows : list Row :=
  [ [("a", VNum 1); ("b", VNum 2)]; [("a", VNum 3); ("b", VNum 4)] ].

Definition by_name : Order := {| column := "name"; direction := "asc" |}.

Definition command (n : string) (cols : list string) (target : string)
           (refs : list string) : Command :=
  {| name := n; columns := cols; on := target; references := refs;
     index := EmptyString; to := EmptyString |}.

Definition members : Blueprint :=
  {| bp_table := "members";
     bp_columns :=
       [ {| col_name := "id"; type := "integer"; nullable := false;
            defaultValue := VUndefined; autoIncrement := false |};
         {| col_name := "org"; type := "integer"; nullable := true;
            defaultValue := VNum 0; autoIncrement := false |} ];
     bp_commands :=
       [ command "primary" ["id"] EmptyString [];
         command "foreign" ["org"] "orgs" ["id"] ] |}.

Definition zero_default : Column :=
  {| col_name := "org"; type := "integer"; nullable := true;
     defaultValue := VNum 0; autoIncrement := false |}.

Definition no_connection : Options :=
  {| opt_connection := None; opt_debug := VUndefined;
     opt_pool := PoolExtend {| o_name := None; o_max := None; o_min := None;
                               o_idleTimeoutMillis := None; o_log := None |} |}.

Definition pooled : State :=
  {| debug := VUndefined;
     pool := Pool (extend_defaults {| o_name := None; o_max := None; o_min := None;
                                       o_idleTimeoutMillis := None; o_log := None |});
     connection := None;
     connectionSettings := Some {| filename := "db.sqlite" |};
     idCounter := 0 |}.

Definition db : Database := {| db_filename := "db.sqlite"; __cid := "__cid1" |}.

(** A driver in the manner of node-sqlite3: [run] calls back with the
    statement's [lastID] and [changes] and no rows, [all] with the rows;
    this one inserted row 7 and holds one row. *)
Definition engine : World :=
  {| acquired := (VNull, Some db);
     executed := fun _ method _ _ =>
       match method with
       | run => ({| lastID := Some (VNum 7); changes := Some (VNum 1) |},
                 VNull, NoResponse)
       | all => ({| lastID := None; changes := None |},
                 VNull, Rows [[("a", VNum 1)]])
       end |}.

(** The same driver with every statement failing. *)
Definition failing_engine : World :=
  {| acquired := (VNull, Some db);
     executed := fun _ _ _ _ =>
       ({| lastID := None; changes := None |}, VStr "SQLITE_ERROR", NoResponse) |}.

Definition no_overrides : PoolOverrides :=
  {| o_name := None; o_max := None; o_min := None;
     o_idleTimeoutMillis := None; o_log := None |}.

(** [{connection: {filename: 'db.sqlite'}, pool: false}]. *)
Definition unpooled_options : Options :=
  {| opt_connection := Some {| filename := "db.sqlite" |};
     opt_debug := VBool false; opt_pool := PoolFalse |}.


(** A pool that fails to hand out a connection. *)
Definition exhausted : World :=
  {| acquired := (VStr "pool is draining", None);
     executed := executed engine |}.

(** Rows whose later keys differ from the first row's. *)
Definition ragged_rows : list Row :=
  [ [("a", VNum 1); ("b", VNum 2)]; [("c", VNum 3)] ].

End Examples.

(** ** Properties *)

(** *** Strings, joins and loops *)

Lemma append_assoc (a b c : string) : (a ++ b) ++ c = a ++ (b ++ c).
Proof.
  induction a as [|ch a IH]; simpl; [reflexivity|].
  now rewrite IH.
Qed.

Lemma append_empty_r (a : string) : a ++ EmptyString = a.
Proof.
  induction a as [|ch a IH]; simpl; [reflexivity|].
  now rewrite IH.
Qed.

Lemma prefix_append (a b : string) : prefix a (a ++ b) = true.
Proof.
  induction a as [|ch a IH]; simpl.
  - now destruct b.
  - destruct (ascii_dec ch ch) as [_|ne]; [exact IH|now elim ne].
Qed.

Lemma join_cons (sep x y : string) (l : list string) :
  join sep (x :: y :: l) = x ++ sep ++ join sep (y :: l).
Proof. reflexivity. Qed.

(** A counting loop that reads [l[i]] at each index is a left fold. *)
Lemma for_loop_fold {A S : Type} (g : S -> A -> S) (rest : list A) :
  forall (pre : list A) (s : S),
    for_loop (List.length rest) (List.length pre)
      (fun i s => match nth_error (pre ++ rest)%list i with
                  | Some x => g s x
                  | None => s
                  end) s
    = fold_left g rest s.
Proof.
  induction rest as [|a rest IH]; intros pre s; simpl; [reflexivity|].
  rewrite nth_error_app2 by lia.
  rewrite Nat.sub_diag; simpl.
  specialize (IH (pre ++ [a])%list (g s a)).
  rewrite length_app in IH; simpl in IH.
  rewrite Nat.add_1_r in IH.
  rewrite <- app_assoc in IH; simpl in IH.
  exact IH.
Qed.

Lemma fold_left_push {A B : Type} (f : A -> B) (l : list A) :
  forall acc, fold_left (fun acc x => push acc (f x)) l acc = (acc ++ map f l)%list.
Proof.
  induction l as [|a l IH]; intros acc; simpl.
  - now rewrite app_nil_r.
  - rewrite IH. unfold push. now rewrite <- app_assoc.
Qed.

Lemma for_loop_push_const {A : Type} (x : A) (n : nat) :
  forall i acc, for_loop n i (fun _ acc => push acc x) acc = (acc ++ repeat x n)%list.
Proof.
  induction n as [|n IH]; intros i acc; simpl.
  - now rewrite app_nil_r.
  - rewrite IH. unfold push. now rewrite <- app_assoc.
Qed.

Lemma fold_left_append {A : Type} (f : A -> string) (l : list A) :
  forall acc, fold_left (fun acc x => acc ++ f x) l acc = acc ++ Spec.concat_all (map f l).
Proof.
  induction l as [|a l IH]; intros acc; simpl.
  - now rewrite append_empty_r.
  - rewrite IH. now rewrite append_assoc.
Qed.

(** *** Rows as objects *)

(** Reading an object at its own keys, in its own order, gives its values. *)
Lemma row_values_by_own_keys (row : Row) :
  NoDup (keys row) -> Spec.row_values_by (keys row) row = values row.
Proof.
  unfold Spec.row_values_by.
  induction row as [|[k v] row IH]; intros nd; simpl; [reflexivity|].
  inversion nd as [|? ? notin nd']; subst.
  rewrite String.eqb_refl; simpl. f_equal.
  rewrite <- (IH nd').
  apply map_ext_in; intros k' ink'.
  destruct (String.eqb_spec k k') as [e|_]; [|reflexivity].
  subst k'. now elim notin.
Qed.

(** Read in the key order of a row with the same keys, they are the same
    values in another order. *)
Lemma row_values_by_shared_keys (first row : Row) :
  NoDup (keys first) -> Spec.shares_keys first row ->
  Permutation (Spec.row_values_by (keys first) row) (values row).
Proof.
  intros ndf [ndr same].
  rewrite <- (row_values_by_own_keys row ndr).
  unfold Spec.row_values_by. apply Permutation_map.
  apply NoDup_Permutation; [assumption|assumption|].
  intros k; symmetry; apply same.
Qed.

(** *** The query grammar *)

Section QueryGrammar.
Context {this : Inherited}.

Lemma join_orders (o : Order) (rest : list Order) :
  join ", " (map (fun order =>
                    wrap (column order) ++ " collate nocase " ++ direction order)
                 (o :: rest))
  = wrap (column o) ++ " collate nocase " ++ direction o ++ Spec.more_orders rest.
Proof.
  revert o; induction rest as [|o' rest IH]; intros o.
  - simpl. now rewrite append_empty_r.
  - specialize (IH o'). simpl map in IH |- *.
    rewrite join_cons, IH. simpl Spec.more_orders.
    now rewrite !append_assoc.
Qed.

Lemma select_clauses_loop (ks : list string) :
  for_loop (List.length ks) 0
    (fun i columns =>
       match nth_error ks i with
       | Some column => push columns ("? as " ++ wrap column)
       | None => columns
       end) []
  = map (fun k => "? as " ++ wrap k) ks.
Proof.
  rewrite <- (app_nil_l (map _ ks)), <- fold_left_push.
  exact (for_loop_fold
           (fun (columns : list string) column =>
              push columns ("? as " ++ wrap column)) ks [] []).
Qed.

(** The text of a multi-row insert, whatever keys the later rows have. *)
Lemma compileInsert_union_select (qb : Builder) (first second : Row) (rest : list Row) :
  Grammar.compileInsert qb (RowArray (first :: second :: rest)) =
  Return (Sql ("insert into " ++ wrapTable (TableName (table qb))
               ++ " (" ++ columnize (keys first) ++ ") select "
               ++ join " union select "
                    (repeat (Spec.select_clause (keys first))
                            (List.length (first :: second :: rest))))).
Proof.
  unfold Grammar.compileInsert.
  change (Nat.eqb (List.length (first :: second :: rest)) 1) with false.
  cbv iota. change (nth_error (first :: second :: rest) 0) with (Some first).
  cbv iota zeta.
  rewrite select_clauses_loop, for_loop_push_const.
  reflexivity.
Qed.

Lemma insertBindings_by_rows (first : Row) (rest : list Row) :
  Knex.insertBindings (first :: rest)
  = List.concat (map (Spec.row_values_by (keys first)) (first :: rest)).
Proof.
  unfold Knex.insertBindings. now rewrite flat_map_concat_map.
Qed.

Lemma concat_same_length {A : Type} (n : nat) (chunks : list (list A)) :
  Forall (fun chunk => List.length chunk = n) chunks ->
  List.length (List.concat chunks) = List.length chunks * n.
Proof.
  induction 1 as [|chunk chunks len _ IH]; simpl; [reflexivity|].
  rewrite length_app, IH, len. reflexivity.
Qed.

(** C1. A multi-row insert of N > 1 rows sharing the first row's key set
    compiles to "insert into <table> (<keys>) select <clause> union select
    <clause> ...": exactly N clauses, each "? as <key>" over the first
    row's keys in their order. The bound parameter list (the builder's,
    modelled from the specification) is the rows' values row by row, each
    row read in that key order: as many values as placeholders, every
    row's own values, and the rows' values themselves when the rows list
    their keys in the first row's order. *)
Theorem compileInsert_multi_row (qb : Builder) (first second : Row) (rest : list Row) :
  Forall (Spec.shares_keys first) (first :: second :: rest) ->
  Grammar.compileInsert qb (RowArray (first :: second :: rest)) =
    Return (Sql ("insert into " ++ wrapTable (TableName (table qb))
                 ++ " (" ++ columnize (keys first) ++ ") select "
                 ++ join " union select "
                      (repeat (Spec.select_clause (keys first))
                              (List.length (first :: second :: rest)))))
  /\ Knex.insertBindings (first :: second :: rest)
     = List.concat (map (Spec.row_values_by (keys first)) (first :: second :: rest))
  /\ List.length (Knex.insertBindings (first :: second :: rest))
     = List.length (first :: second :: rest) * List.length (keys first)
  /\ Forall (fun row => Permutation (Spec.row_values_by (keys first) row) (values row))
            (first :: second :: rest)
  /\ (Forall (fun row => keys row = keys first) (first :: second :: rest) ->
      Knex.insertBindings (first :: second :: rest)
      = List.concat (map values (first :: second :: rest))).
Proof.
  intros shared.
  assert (ndf : NoDup (keys first)) by (inversion shared as [|? ? [nd _] _]; exact nd).
  split; [apply compileInsert_union_select|].
  split; [apply insertBindings_by_rows|].
  split; [|split].
  - rewrite insertBindings_by_rows,
      (concat_same_length (List.length (keys first))).
    + now rewrite length_map.
    + apply Forall_map, Forall_forall; intros row _.
      unfold Spec.row_values_by. now rewrite length_map.
  - eapply Forall_impl; [|exact shared].
    intros row sh. now apply row_values_by_shared_keys.
  - intros same. rewrite insertBindings_by_rows. f_equal.
    apply map_ext_in; intros row inrow.
    rewrite Forall_forall in same, shared.
    rewrite <- (same row inrow).
    apply row_values_by_own_keys, (shared row inrow).
Qed.

(** C4. An insert of exactly one row, given as the row or as an array of
    that one row, returns what the generic insert compiler returns for the
    same builder and row. *)
Theorem compileInsert_single_row (qb : Builder) (row : Row) :
  Grammar.compileInsert qb (OneRow row) = Grammar_compileInsert qb [row]
  /\ Grammar.compileInsert qb (RowArray [row]) = Grammar_compileInsert qb [row].
Proof. split; reflexivity. Qed.

(** C9. No orders, no clause; otherwise "order by " and then, for each
    entry in input order, the wrapped column, " collate nocase " and the
    direction, the entries separated by ", ". *)
Theorem compileOrders_collate_nocase (qb : Builder) :
  Grammar.compileOrders qb [] = None
  /\ forall (o : Order) (rest : list Order),
      Grammar.compileOrders qb (o :: rest)
      = Some ("order by " ++ wrap (column o) ++ " collate nocase " ++ direction o
              ++ Spec.more_orders rest).
Proof.
  split; [reflexivity|].
  intros o rest. unfold Grammar.compileOrders.
  change (Nat.eqb (List.length (o :: rest)) 0) with false. cbv iota.
  now rewrite join_orders.
Qed.

(** C2. [compileTruncate] evaluates [query.from] for its second
    statement; the module has no [query], so without a global of that
    name the call throws and returns no statement at all. *)
Theorem compileTruncate_query_not_defined (qb : Builder) :
  Grammar.compileTruncate None qb = Throw (ReferenceError "query is not defined").
Proof. reflexivity. Qed.

(** With a global [query], the row delete is over that object's table,
    not the builder's. *)
Lemma compileTruncate_reads_global (query qb : Builder) :
  Grammar.compileTruncate (Some query) qb =
  Return (SqlBindings
            (set [("delete from sqlite_sequence where name = ?", [VStr (from qb)])]
                 ("delete from " ++ wrapTable (TableName (from query))) [])).
Proof. reflexivity. Qed.

End QueryGrammar.

(** *** The schema grammar *)

Section Schema.
Context {this : Inherited} {schema : InheritedSchema}.

(** The loop of [addForeignKeys] appends one clause per foreign command,
    in the order of the commands. *)
Lemma addForeignKeys_clauses (blueprint : Blueprint) :
  SchemaGrammar.addForeignKeys blueprint
  = Spec.concat_all (map Spec.foreign_key_clause
                         (getCommandsByName blueprint "foreign")).
Proof.
  unfold SchemaGrammar.addForeignKeys. cbv zeta.
  transitivity (fold_left (fun sql foreign => sql ++ Spec.foreign_key_clause foreign)
                          (getCommandsByName blueprint "foreign") EmptyString).
  - exact (for_loop_fold (fun sql foreign => sql ++ Spec.foreign_key_clause foreign)
                         (getCommandsByName blueprint "foreign") [] EmptyString).
  - exact (fold_left_append Spec.foreign_key_clause
                            (getCommandsByName blueprint "foreign") EmptyString).
Qed.

(** C5. For a blueprint with a primary command and one or more foreign
    commands, [compileCreateTable] returns one "create table <table> ("
    statement: the column definitions joined by ", ", then one
    "foreign key(...) references ..." clause per foreign command in order,
    then the "primary key (...)" clause, then ")". The foreign command
    itself compiles to nothing, so no other statement carries the
    constraint. *)
Theorem compileCreateTable_inline_keys
        (blueprint : Blueprint) (command primary foreign : Command)
        (foreigns : list Command) :
  getCommandByName blueprint "primary" = Some primary ->
  getCommandsByName blueprint "foreign" = foreign :: foreigns ->
  SchemaGrammar.compileCreateTable blueprint command
  = "create table " ++ wrapTable (TableOf blueprint) ++ " ("
      ++ join ", " (getColumns blueprint)
      ++ Spec.concat_all (map Spec.foreign_key_clause (foreign :: foreigns))
      ++ ", primary key (" ++ columnize (columns primary) ++ ")"
      ++ ")"
  /\ prefix "create table " (SchemaGrammar.compileCreateTable blueprint command) = true
  /\ Forall (fun f => SchemaGrammar.compileForeign blueprint f = Return NoSql)
            (foreign :: foreigns).
Proof.
  intros has_primary has_foreigns.
  assert (text : SchemaGrammar.compileCreateTable blueprint command
                 = "create table " ++ wrapTable (TableOf blueprint) ++ " ("
                     ++ join ", " (getColumns blueprint)
                     ++ Spec.concat_all (map Spec.foreign_key_clause (foreign :: foreigns))
                     ++ ", primary key (" ++ columnize (columns primary) ++ ")"
                     ++ ")").
  { unfold SchemaGrammar.compileCreateTable, SchemaGrammar.addPrimaryKeys.
    rewrite has_primary, addForeignKeys_clauses, has_foreigns. cbv zeta.
    lazymatch goal with
    | |- context [String.eqb ?s EmptyString] =>
        change (String.eqb s EmptyString) with false
    end.
    cbv iota. now rewrite !append_assoc. }
  split; [exact text|split].
  - rewrite text. apply prefix_append.
  - apply Forall_forall; intros f _. reflexivity.
Qed.

(** C6. [compileDropColumn] throws for every blueprint and command, always
    the same error, and so never returns SQL text. *)
Theorem compileDropColumn_always_throws (blueprint : Blueprint) (command : Command) :
  SchemaGrammar.compileDropColumn blueprint command
  = Throw (Error "Drop column not supported for SQLite.")
  /\ forall sql : Compiled,
      SchemaGrammar.compileDropColumn blueprint command <> Return sql.
Proof. split; [reflexivity|]. intros sql; discriminate. Qed.

Lemma truthy_not_falsy (v : value) : truthy v = false <-> Spec.falsy v.
Proof.
  unfold Spec.falsy; split.
  - destruct v as [| |b|z| |s]; simpl; intros t; auto 8.
    + destruct b; [discriminate|auto 8].
    + apply negb_false_iff, Z.eqb_eq in t. subst; auto 8.
    + apply negb_false_iff, String.eqb_eq in t. subst; auto 8.
  - intros [e|[e|[e|[e|[e|e]]]]]; subst; reflexivity.
Qed.

(** C10. A column whose default value is falsy (0, the empty string,
    false, and likewise undefined, null, NaN) gets no default clause at
    all; every other default value gets " default '<value>'", the value
    as [getDefaultValue] writes it. *)
Theorem modifyDefault_skips_falsy (blueprint : Blueprint) (column : Column) :
  (Spec.falsy (defaultValue column) ->
   SchemaGrammar.modifyDefault blueprint column = None)
  /\ (~ Spec.falsy (defaultValue column) ->
      SchemaGrammar.modifyDefault blueprint column
      = Some (" default '" ++ getDefaultValue (defaultValue column) ++ "'")).
Proof.
  unfold SchemaGrammar.modifyDefault.
  destruct (truthy (defaultValue column)) eqn:t; split; intros f.
  - apply truthy_not_falsy in f. congruence.
  - reflexivity.
  - reflexivity.
  - elim f. now apply truthy_not_falsy.
Qed.

End Schema.

(** *** The connection handling *)

Section Connections.
Import Client.

(** With an explicit connection [query] returns at once: [run] on that
    connection, whatever the type, and the caller's callback handed to the
    driver as it is. *)
Lemma query_on_connection (w : World) (st : State) (querystring : string)
      (params : list value) (c : Database) (type : string) :
  exists this err resp,
    executed w c run querystring params = (this, err, resp)
    /\ perform w (query st querystring params (Some c) type)
       = ([EExec c run querystring params; ECallback this err resp], None).
Proof.
  destruct (executed w c run querystring params) as [[this err] resp] eqn:ex.
  exists this, err, resp. split; [reflexivity|].
  simpl. now rewrite ex.
Qed.

(** The pooled path, for a pool that hands out [client]: one acquire, the
    statement by the method the type selects, the release, the callback. *)
Lemma query_pooled (w : World) (st : State) (settings : PoolSettings)
      (querystring : string) (params : list value) (type : string)
      (err0 : value) (client : Database) :
  pool st = Pool settings ->
  acquired w = (err0, Some client) ->
  truthy err0 = false ->
  forall method,
    method = (if String.eqb type "insert" || String.eqb type "update"
              then run else all) ->
    forall this err resp,
      executed w client method querystring params = (this, err, resp) ->
      perform w (query st querystring params None type)
      = ([EAcquire; EExec client method querystring params; ERelease client;
          ECallback this err
            match lastID this with
            | Some id => InsertResult id (or_default (changes this) VUndefined)
            | None => resp
            end],
         None).
Proof.
  intros is_pool acq ok method -> this err resp ex.
  unfold query. rewrite is_pool. simpl. rewrite acq, ok. simpl.
  now rewrite ex.
Qed.

(** C3. On the pooled path, once the pool has handed out a connection, the
    call runs the statement on it, releases that connection, and only then
    calls the caller back: one release, after the statement and before the
    callback, whether the driver reports an error or not. *)
Theorem query_releases_before_callback (w : World) (st : State)
        (settings : PoolSettings) (querystring : string) (params : list value)
        (type : string) (err0 : value) (client : Database) :
  pool st = Pool settings ->
  acquired w = (err0, Some client) ->
  truthy err0 = false ->
  exists method this err resp,
    fst (executed w client method querystring params) = (this, err)
    /\ perform w (query st querystring params None type)
       = ([EAcquire; EExec client method querystring params; ERelease client;
           ECallback this err resp], None)
    /\ List.length (filter is_release
                      (fst (perform w (query st querystring params None type)))) = 1.
Proof.
  intros is_pool acq ok.
  set (method := if String.eqb type "insert" || String.eqb type "update"
                 then run else all).
  destruct (executed w client method querystring params) as [[this err] resp] eqn:ex.
  pose proof (query_pooled w st settings querystring params type err0 client
                           is_pool acq ok method eq_refl this err resp ex) as trace.
  exists method, this, err.
  eexists. rewrite ex, trace. repeat split.
Qed.

(** X10. The result on the pooled path, for a driver whose [run] leaves
    [lastID] on the statement and whose [all] does not: a mutating type
    reports the insert id and the changes, any other type the driver's
    rows. *)
Lemma query_pooled_result (w : World) (st : State) (settings : PoolSettings)
      (querystring : string) (params : list value) (type : string)
      (err0 : value) (client : Database) (this : Statement) (err : value)
      (resp : Response) :
  pool st = Pool settings ->
  acquired w = (err0, Some client) ->
  truthy err0 = false ->
  (type = "insert" \/ type = "update" ->
   forall id,
     executed w client run querystring params = (this, err, resp) ->
     lastID this = Some id ->
     perform w (query st querystring params None type)
     = ([EAcquire; EExec client run querystring params; ERelease client;
         ECallback this err (InsertResult id (or_default (changes this) VUndefined))],
        None))
  /\ (type <> "insert" -> type <> "update" ->
      executed w client all querystring params = (this, err, resp) ->
      lastID this = None ->
      perform w (query st querystring params None type)
      = ([EAcquire; EExec client all querystring params; ERelease client;
          ECallback this err resp], None)).
Proof.
  intros is_pool acq ok; split.
  - intros mutating id ex has_id.
    assert (m : run = if String.eqb type "insert" || String.eqb type "update"
                      then run else all)
      by (destruct mutating as [-> | ->]; reflexivity).
    rewrite (query_pooled w st settings querystring params type err0 client
                          is_pool acq ok run m this err resp ex).
    now rewrite has_id.
  - intros not_insert not_update ex no_id.
    assert (m : all = if String.eqb type "insert" || String.eqb type "update"
                      then run else all).
    { apply String.eqb_neq in not_insert, not_update.
      now rewrite not_insert, not_update. }
    rewrite (query_pooled w st settings querystring params type err0 client
                          is_pool acq ok all m this err resp ex).
    now rewrite no_id.
Qed.

(** C7. Called without a connection configuration, [initialize] returns
    with the module's state untouched. While the pool is unset, a later
    [query] without a connection fails with a [TypeError] before it
    acquires, runs or calls back anything; a [query] given a connection
    runs the statement on it; [getConnection] fails with a [TypeError]. *)
Theorem initialize_without_connection (options : Options) (st : State) :
  opt_connection options = None ->
  initialize options st = Return st
  /\ (pool st = PoolUndefined ->
      forall w querystring params type,
      exists message,
        perform w (query st querystring params None type)
        = ([], Some (TypeError message)))
  /\ (forall w querystring params c type,
      exists this err resp,
        perform w (query st querystring params (Some c) type)
        = ([EExec c run querystring params; ECallback this err resp], None))
  /\ (connectionSettings st = None ->
      exists message, getConnection st = Throw (TypeError message)).
Proof.
  intros none. repeat split.
  - unfold initialize. now rewrite none.
  - intros unset w querystring params type.
    unfold query. rewrite unset. eexists; reflexivity.
  - intros w querystring params c type.
    destruct (query_on_connection w st querystring params c type)
      as (this & err & resp & _ & trace).
    now exists this, err, resp.
  - intros unset. unfold getConnection. rewrite unset. eexists; reflexivity.
Qed.

End Connections.

(** *** The properties on concrete inputs *)

Section Concrete.
Import Client Examples.
Import Knex.

Lemma wrapValue_quotes (s : string) :
  Grammar.wrapValue "*" = "*"
  /\ (s <> "*" -> Grammar.wrapValue s = Spec.quoted s).
Proof.
  split; [reflexivity|]. intros ne. unfold Grammar.wrapValue.
  apply String.eqb_neq in ne. now rewrite ne.
Qed.

(** The rows [{a: 1, b: 2}, {a: 3, b: 4}] share their keys; they compile
    to two select clauses and bind 1, 2, 3, 4. *)
Lemma compileInsert_two_rows :
  Grammar.compileInsert users (RowArray two_rows)
  = Return (Sql ("insert into " ++ Spec.quoted "users"
                 ++ " (" ++ Spec.quoted "a" ++ ", " ++ Spec.quoted "b"
                 ++ ") select ? as " ++ Spec.quoted "a" ++ ", ? as " ++ Spec.quoted "b"
                 ++ " union select ? as " ++ Spec.quoted "a" ++ ", ? as " ++ Spec.quoted "b"))
  /\ insertBindings two_rows = [VNum 1; VNum 2; VNum 3; VNum 4].
Proof.
  assert (shared : Forall (Spec.shares_keys [("a", VNum 1); ("b", VNum 2)]) two_rows).
  { repeat (apply Forall_cons || apply Forall_nil);
      (split;
       [ repeat (apply NoDup_cons; [simpl; intuition discriminate|]); apply NoDup_nil
       | intros k; simpl; tauto ]). }
  destruct (compileInsert_multi_row (this := Knex.grammar)
              users [("a", VNum 1); ("b", VNum 2)]
              [("a", VNum 3); ("b", VNum 4)] [] shared)
    as (text & bindings & _).
  split.
  - exact (eq_trans text eq_refl).
  - exact (eq_trans bindings eq_refl).
Defined.

Example compileInsert_one_row :
  Grammar.compileInsert users (OneRow [("a", VNum 1)])
  = Return (Sql ("insert into " ++ Spec.quoted "users"
                 ++ " (" ++ Spec.quoted "a" ++ ") values (?)")).
Proof. reflexivity. Qed.

Example compileOrders_by_name :
  Grammar.compileOrders users [by_name]
  = Some ("order by " ++ Spec.quoted "name" ++ " collate nocase asc")
  /\ Grammar.compileOrders users [] = None.
Proof. split; reflexivity. Qed.

(** The blueprint [members] has a primary and a foreign command. *)
Lemma compileCreateTable_members :
  SchemaGrammar.compileCreateTable members (command "create" [] EmptyString [])
  = "create table " ++ Spec.quoted "members" ++ " ("
      ++ Spec.quoted "id" ++ " integer not null, "
      ++ Spec.quoted "org" ++ " integer null, foreign key("
      ++ Spec.quoted "org" ++ ") references "
      ++ Spec.quoted "orgs" ++ "(" ++ Spec.quoted "id" ++ "), primary key ("
      ++ Spec.quoted "id" ++ "))".
Proof.
  destruct (compileCreateTable_inline_keys
              (this := Knex.grammar) (schema := Knex.schema)
              members (command "create" [] EmptyString [])
              (command "primary" ["id"] EmptyString [])
              (command "foreign" ["org"] "orgs" ["id"]) []
              eq_refl eq_refl) as (text & _).
  exact (eq_trans text eq_refl).
Defined.

(** A default of 0 gives no clause, a default of "x" gives one. *)
Lemma modifyDefault_zero_and_text :
  SchemaGrammar.modifyDefault members zero_default = None
  /\ SchemaGrammar.modifyDefault members
       {| col_name := "nm"; type := "string"; nullable := true;
          defaultValue := VStr "x"; autoIncrement := false |}
     = Some " default 'x'".
Proof.
  split.
  - apply (proj1 (modifyDefault_skips_falsy (this := Knex.grammar) members zero_default)).
    unfold Spec.falsy; simpl. auto 8.
  - refine (proj2 (modifyDefault_skips_falsy (this := Knex.grammar) members _) _).
    unfold Spec.falsy; simpl. intuition discriminate.
Defined.

(** A failing insert on the pooled path: released, then called back with
    the error. *)
Lemma query_releases_when_statement_fails :
  exists method this err resp,
    fst (executed failing_engine db method "insert into t values (?)" [VNum 1])
    = (this, err)
    /\ perform failing_engine
         (query pooled "insert into t values (?)" [VNum 1] None "insert")
       = ([EAcquire; EExec db method "insert into t values (?)" [VNum 1];
           ERelease db; ECallback this err resp], None)
    /\ List.length
         (filter is_release
            (fst (perform failing_engine
                    (query pooled "insert into t values (?)" [VNum 1] None "insert"))))
       = 1.
Proof.
  refine (query_releases_before_callback failing_engine pooled _ _ _ _ VNull db _ _ _);
    reflexivity.
Defined.

Example query_pooled_failure_trace :
  perform failing_engine
    (query pooled "insert into t values (?)" [VNum 1] None "insert")
  = ([EAcquire; EExec db run "insert into t values (?)" [VNum 1]; ERelease db;
      ECallback {| lastID := None; changes := None |} (VStr "SQLITE_ERROR") NoResponse],
     None).
Proof. reflexivity. Qed.

Example query_pooled_success_traces :
  perform engine (query pooled "insert into t values (?)" [VNum 1] None "insert")
  = ([EAcquire; EExec db run "insert into t values (?)" [VNum 1]; ERelease db;
      ECallback {| lastID := Some (VNum 7); changes := Some (VNum 1) |} VNull
                (InsertResult (VNum 7) (VNum 1))], None)
  /\ perform engine (query pooled "select * from t" [] None "select")
     = ([EAcquire; EExec db all "select * from t" []; ERelease db;
         ECallback {| lastID := None; changes := None |} VNull
                   (Rows [[("a", VNum 1)]])], None).
Proof. split; reflexivity. Qed.

(** C8. With an explicit connection the type is not looked at: a select
    is sent through [run], so the caller is called back without the rows
    the engine holds, and an insert is called back without the
    [{insertId, changes}] object the pooled path builds. *)
Theorem query_on_connection_loses_result :
  perform engine (query pooled "select * from t" [] (Some db) "select")
  = ([EExec db run "select * from t" [];
      ECallback {| lastID := Some (VNum 7); changes := Some (VNum 1) |} VNull
                NoResponse], None)
  /\ perform engine
       (query pooled "insert into t values (?)" [VNum 1] (Some db) "insert")
     = ([EExec db run "insert into t values (?)" [VNum 1];
         ECallback {| lastID := Some (VNum 7); changes := Some (VNum 1) |} VNull
                   NoResponse], None).
Proof. split; reflexivity. Qed.

(** [initialize] without a connection leaves the loaded module as it is. *)
Lemma initialize_no_connection_loaded :
  initialize no_connection loaded = Return loaded
  /\ (pool loaded = PoolUndefined ->
      forall w querystring params type,
      exists message,
        perform w (query loaded querystring params None type)
        = ([], Some (TypeError message)))
  /\ (forall w querystring params c type,
      exists this err resp,
        perform w (query loaded querystring params (Some c) type)
        = ([EExec c run querystring params; ECallback this err resp], None))
  /\ (connectionSettings loaded = None ->
      exists message, getConnection loaded = Throw (TypeError message)).
Proof. exact (initialize_without_connection no_connection loaded eq_refl). Defined.

(** After such an [initialize] a [query] is not a no-op: without a
    connection it throws, with one it runs the statement and calls back. *)
Lemma query_after_initialize_without_connection :
  initialize no_connection loaded = Return loaded
  /\ perform engine (query loaded "select 1" [] None "select")
     = ([], Some (TypeError "Cannot call method 'acquire' of undefined"))
  /\ ~ Spec.no_op (query loaded "select 1" [] None "select")
  /\ ~ Spec.no_op (query loaded "select 1" [] (Some db) "select").
Proof.
  split; [reflexivity|]. split; [reflexivity|].
  split; intros noop; specialize (noop engine); discriminate noop.
Qed.

(** [compileTruncate] on the builder of table [users]: a throw when no
    global [query] exists, and with one (here over [orgs]) a row delete
    over that other table. *)
Example compileTruncate_users :
  Grammar.compileTruncate None users
  = Throw (ReferenceError "query is not defined")
  /\ Grammar.compileTruncate (Some {| table := "orgs"; from := "orgs" |}) users
     = Return (SqlBindings
                 [("delete from sqlite_sequence where name = ?", [VStr "users"]);
                  ("delete from " ++ Spec.quoted "orgs", [])]).
Proof. split; reflexivity. Qed.

End Concrete.

(** *** Further properties of the grammars *)

Lemma length_append (a b : string) :
  String.length (a ++ b) = String.length a + String.length b.
Proof.
  induction a as [|ch a IH]; simpl; [reflexivity|].
  now rewrite IH.
Qed.

Lemma append_cancel_r (c a b : string) : a ++ c = b ++ c -> a = b.
Proof.
  revert b; induction a as [|x a IH]; intros [|y b] same; simpl in same.
  - reflexivity.
  - apply (f_equal String.length) in same. simpl in same.
    rewrite length_append in same. lia.
  - apply (f_equal String.length) in same. simpl in same.
    rewrite length_append in same. lia.
  - injection same as -> same. f_equal. now apply IH.
Qed.

(** X1. [wrapValue] keeps identifiers apart: two values with the same
    wrapped form are the same value, so no name is wrapped to the bare
    wildcard and no two names collide. *)
Theorem wrapValue_injective (a b : string) :
  Grammar.wrapValue a = Grammar.wrapValue b -> a = b.
Proof.
  unfold Grammar.wrapValue, Grammar.dquote.
  destruct (String.eqb_spec a "*") as [-> | na];
    destruct (String.eqb_spec b "*") as [-> | nb]; simpl; intros same.
  - reflexivity.
  - injection same as c _. vm_compute in c. discriminate c.
  - injection same as c _. vm_compute in c. discriminate c.
  - injection same as same. now apply append_cancel_r in same.
Qed.

Section GrammarExtras.
Context {this : Inherited} {schema : InheritedSchema} {helpers : InheritedHelpers}.

(** X2. For two or more rows, [compileInsert] reads the keys of the first
    row and the number of rows and nothing else: the later rows, whatever
    their keys and values, do not change the statement. *)
Theorem compileInsert_reads_first_row_only
        (qb : Builder) (first first' second second' : Row) (rest rest' : list Row) :
  keys first = keys first' ->
  List.length rest = List.length rest' ->
  Grammar.compileInsert qb (RowArray (first :: second :: rest))
  = Grammar.compileInsert qb (RowArray (first' :: second' :: rest')).
Proof.
  intros same_keys same_length.
  rewrite !compileInsert_union_select. simpl List.length.
  now rewrite same_keys, same_length.
Qed.

(** X3. Whatever commands the blueprint holds, [compileCreateTable] returns
    "create table <table> (" and the column definitions, a clause for each
    foreign command found, the primary key clause if a primary command is
    found, and ")": with no such command, the columns alone. The command
    argument is not read. *)
Theorem compileCreateTable_any_blueprint (blueprint : Blueprint) (command : Command) :
  SchemaGrammar.compileCreateTable blueprint command
  = "create table " ++ wrapTable (TableOf blueprint) ++ " ("
      ++ join ", " (getColumns blueprint)
      ++ Spec.concat_all (map Spec.foreign_key_clause
                              (getCommandsByName blueprint "foreign"))
      ++ match getCommandByName blueprint "primary" with
         | Some primary => ", primary key (" ++ columnize (columns primary) ++ ")"
         | None => EmptyString
         end
      ++ ")".
Proof.
  unfold SchemaGrammar.compileCreateTable, SchemaGrammar.addPrimaryKeys.
  rewrite addForeignKeys_clauses. cbv zeta.
  destruct (getCommandByName blueprint "primary") as [primary|].
  - lazymatch goal with
    | |- context [String.eqb ?s EmptyString] =>
        change (String.eqb s EmptyString) with false
    end.
    cbv iota. now rewrite !append_assoc.
  - now rewrite !append_assoc.
Qed.

(** X4. [compileAdd] returns one statement per prefixed column definition,
    in order, each "alter table <table> " followed by that definition; it
    never puts two columns in one statement, and with no column it returns
    no statement. *)
Theorem compileAdd_one_statement_per_column (blueprint : Blueprint) (command : Command) :
  SchemaGrammar.compileAdd blueprint command
  = map (fun column => "alter table " ++ wrapTable (TableOf blueprint) ++ " " ++ column)
        (prefixArray "add column" (getColumns blueprint))
  /\ List.length (SchemaGrammar.compileAdd blueprint command)
     = List.length (prefixArray "add column" (getColumns blueprint)).
Proof.
  assert (statements :
            SchemaGrammar.compileAdd blueprint command
            = map (fun column =>
                     "alter table " ++ wrapTable (TableOf blueprint) ++ " " ++ column)
                  (prefixArray "add column" (getColumns blueprint))).
  { unfold SchemaGrammar.compileAdd. cbv zeta.
    rewrite <- (app_nil_l (map _ _)), <- fold_left_push.
    exact (for_loop_fold
             (fun (statements : list string) column =>
                push statements
                     ("alter table " ++ wrapTable (TableOf blueprint) ++ " " ++ column))
             (prefixArray "add column" (getColumns blueprint)) [] []). }
  split; [exact statements|].
  rewrite statements. apply length_map.
Qed.

End GrammarExtras.

(** *** Further properties of the connection handling *)

Section ConnectionExtras.
Import Client.






(** X6. With [pool: false], [initialize] opens one connection on the
    configured file and keeps it in the module; but a later [query] that is
    handed no connection does not use it: the parameter hides the module's
    variable, [pool] is [false], and the call fails with a [TypeError]
    before anything is run or called back. *)
Theorem initialize_without_pool (options : Options) (st : State)
        (settings : ConnectionSettings) :
  opt_connection options = Some settings ->
  opt_pool options = PoolFalse ->
  exists c st',
    initialize options st = Return st'
    /\ pool st' = PoolDisabled
    /\ connection st' = Some c
    /\ db_filename c = filename settings
    /\ __cid c = Spec.cid_of (S (idCounter st))
    /\ forall w querystring params type,
       exists message,
         perform w (query st' querystring params None type)
         = ([], Some (TypeError message)).
Proof.
  intros configured unpooled.
  unfold initialize. rewrite configured, unpooled. simpl.
  eexists; eexists; split; [reflexivity|].
  simpl. repeat split.
  intros w querystring params type. eexists; reflexivity.
Qed.


(** X8. When the pool calls back with an error, [query] throws an [Error]
    carrying it: no statement is run, nothing is released, and the caller's
    callback is never called with that error. *)
Theorem query_acquire_error_throws (w : World) (st : State) (settings : PoolSettings)
        (querystring : string) (params : list value) (type : string)
        (err0 : value) (client : option Database) :
  pool st = Pool settings ->
  acquired w = (err0, client) ->
  truthy err0 = true ->
  perform w (query st querystring params None type)
  = ([EAcquire], Some (Error (toString err0))).
Proof.
  intros is_pool acq failed.
  unfold query. rewrite is_pool. simpl. now rewrite acq, failed.
Qed.

End ConnectionExtras.

(** X9. The two column modifiers that need no helper: [modifyNullable]
    always writes the column's nullability, " null" or " not null", and
    never leaves it out; [modifyIncrement] writes
    " primary key autoincrement" exactly for a column of type "integer"
    with [autoIncrement] set, and nothing for any other column. *)
Theorem modifiers_nullable_and_increment (blueprint : Blueprint) (column : Column) :
  (SchemaGrammar.modifyNullable blueprint column = Some " null"
   /\ nullable column = true
   \/ SchemaGrammar.modifyNullable blueprint column = Some " not null"
      /\ nullable column = false)
  /\ (SchemaGrammar.modifyIncrement blueprint column = Some " primary key autoincrement"
      <-> type column = "integer" /\ autoIncrement column = true)
  /\ (SchemaGrammar.modifyIncrement blueprint column = None
      <-> ~ (type column = "integer" /\ autoIncrement column = true)).
Proof.
  unfold SchemaGrammar.modifyNullable, SchemaGrammar.modifyIncrement.
  split; [destruct (nullable column); auto|].
  destruct (String.eqb_spec (type column) "integer") as [int|other];
    destruct (autoIncrement column); simpl; split; split;
    intros; try reflexivity; try discriminate;
    intuition (try discriminate; try congruence).
Qed.

(** *** The further properties on concrete inputs *)

Section ConcreteExtras.
Import Client Examples.
Import Knex.

(** Two different column names are wrapped differently. *)
Lemma wrapValue_keeps_names_apart :
  Grammar.wrapValue "id" <> Grammar.wrapValue "name".
Proof.
  intros same. apply wrapValue_injective in same. discriminate same.
Defined.

(** A second row with the single key [c] compiles like one with the keys
    [a] and [b]: two clauses over [a] and [b]. *)
Lemma compileInsert_ragged_rows :
  Grammar.compileInsert users (RowArray ragged_rows)
  = Grammar.compileInsert users (RowArray two_rows).
Proof.
  exact (compileInsert_reads_first_row_only
           (this := Knex.grammar) users
           [("a", VNum 1); ("b", VNum 2)] [("a", VNum 1); ("b", VNum 2)]
           [("c", VNum 3)] [("a", VNum 3); ("b", VNum 4)] [] [] eq_refl eq_refl).
Defined.

Example compileCreateTable_without_commands :
  SchemaGrammar.compileCreateTable
    {| bp_table := "tags";
       bp_columns := [ {| col_name := "label"; type := "string"; nullable := false;
                          defaultValue := VUndefined; autoIncrement := false |} ];
       bp_commands := [] |}
    (command "create" [] EmptyString [])
  = "create table " ++ Spec.quoted "tags" ++ " (" ++ Spec.quoted "label"
      ++ " varchar not null)".
Proof. reflexivity. Qed.

Example compileAdd_members :
  SchemaGrammar.compileAdd members (command "add" [] EmptyString [])
  = [ "alter table " ++ Spec.quoted "members" ++ " add column "
        ++ Spec.quoted "id" ++ " integer not null";
      "alter table " ++ Spec.quoted "members" ++ " add column "
        ++ Spec.quoted "org" ++ " integer null" ]
  /\ SchemaGrammar.compileAdd
       {| bp_table := "members"; bp_columns := []; bp_commands := [] |}
       (command "add" [] EmptyString [])
     = [].
Proof. split; reflexivity. Qed.


Example open_connections_three :
  option_map (map __cid)
             match Spec.open_connections 3 pooled with
             | Return (cs, _) => Some cs
             | Throw _ => None
             end
  = Some ["__cid1"; "__cid2"; "__cid3"].
Proof. reflexivity. Qed.

(** [initialize] with [pool: false] on the loaded module. *)
Lemma initialize_unpooled_options :
  exists c st',
    initialize unpooled_options loaded = Return st'
    /\ pool st' = PoolDisabled
    /\ connection st' = Some c
    /\ db_filename c = "db.sqlite"
    /\ __cid c = Spec.cid_of 1
    /\ forall w querystring params type,
       exists message,
         perform w (query st' querystring params None type)
         = ([], Some (TypeError message)).
Proof.
  exact (initialize_without_pool unpooled_options loaded
                                 {| filename := "db.sqlite" |} eq_refl eq_refl).
Defined.


(** A pool that calls back with an error. *)
Lemma query_on_exhausted_pool :
  perform exhausted (query pooled "select 1" [] None "select")
  = ([EAcquire], Some (Error "pool is draining")).
Proof.
  exact (query_acquire_error_throws
           exhausted pooled
           (extend_defaults {| o_name := None; o_max := None; o_min := None;
                               o_idleTimeoutMillis := None; o_log := None |})
           "select 1" [] "select" (VStr "pool is draining") None
           eq_refl eq_refl eq_refl).
Defined.

(** An insert on the pooled path of the example driver reports row 7 and
    one change. *)
Lemma query_pooled_insert_result :
  perform engine (query pooled "insert into t values (?)" [VNum 1] None "insert")
  = ([EAcquire; EExec db run "insert into t values (?)" [VNum 1]; ERelease db;
      ECallback {| lastID := Some (VNum 7); changes := Some (VNum 1) |} VNull
                (InsertResult (VNum 7) (VNum 1))], None).
Proof.
  exact (proj1 (query_pooled_result
                  engine pooled
                  (extend_defaults {| o_name := None; o_max := None; o_min := None;
                                      o_idleTimeoutMillis := None; o_log := None |})
                  "insert into t values (?)" [VNum 1] "insert" VNull db
                  {| lastID := Some (VNum 7); changes := Some (VNum 1) |} VNull
                  NoResponse eq_refl eq_refl eq_refl)
               (or_introl eq_refl) (VNum 7) eq_refl eq_refl).
Defined.

End ConcreteExtras.
